(** * hpc_libs.v0.is_container: container detection through [systemd-detect-virt]

    A shallow embedding of [lib/charms/hpc_libs/v0/is_container.py].

    The module has one exception class, [DetectVirtNotFoundError], and one
    function, [is_container], which talks to the operating system twice:
    it asks [shutil.which] whether an executable is on the search path
    and starts it, by its bare name, with [subprocess.run].  Both calls are modelled as operations of a small
    state-and-exception monad [Py] over a [World]; the world holds the
    host (what the search path resolves, how a started program behaves)
    and the log of the operating-system interactions performed so far. *)

From Stdlib Require Import ZArith List String Bool Lia.
Import ListNotations.

Open Scope string_scope.
Open Scope list_scope.
Open Scope Z_scope.

(** ** Python values and exceptions *)

Module Python.

(** The Python objects that can reach this module's code. *)
Inductive pyval : Type :=
| PyNone
| PyBool (b : bool)
| PyInt (n : Z)
| PyStr (s : string).

(** [class DetectVirtNotFoundError(Exception)]: the class adds no
    constructor of its own, so an instance is its [args] tuple, filled by
    [BaseException] with the positional arguments of the call. *)
Record DetectVirtNotFoundError : Type :=
  mkDetectVirtNotFoundError { args : list pyval }.

(** The [OSError] family, as raised when a program cannot be started. *)
Inductive oserror : Type :=
| FileNotFoundError (errno : Z) (strerror : string)
| PermissionError (errno : Z) (strerror : string)
| OSError (errno : Z) (strerror : string).

(** The exceptions that can travel through this module. *)
Inductive exn : Type :=
| EDetectVirtNotFound (e : DetectVirtNotFoundError)
| EOSError (e : oserror)
| ECalledProcessError (returncode : Z) (cmd : list string)
| EIndexError (msg : string).

(** The outcome of evaluating a Python expression or call. *)
Inductive result (A : Type) : Type :=
| Return (a : A)
| Raise (e : exn).

Arguments Return {A} a.
Arguments Raise {A} e.

(** [x is None]. *)
Definition is_None {A : Type} (x : option A) : bool :=
  match x with
  | None => true
  | Some _ => false
  end.

(** [t[i]] on a tuple: a negative index counts from the end, an index
    out of range raises [IndexError]. *)
Definition tuple_getitem (t : list pyval) (i : Z) : result pyval :=
  let n := Z.of_nat (List.length t) in
  let j := if i <? 0 then i + n else i in
  if (j <? 0) || (n <=? j)
  then Raise (EIndexError "tuple index out of range")
  else match nth_error t (Z.to_nat j) with
       | Some v => Return v
       | None => Raise (EIndexError "tuple index out of range")
       end.

End Python.

Import Python.

(** ** The host and the interaction log *)

Module OS.

(** A started child process, seen from its parent once it has ended:
    its exit status (negative when a signal killed it) and what it wrote
    to its standard output and standard error. *)
Record Child : Type := mkChild {
  exit_status : Z;
  child_stdout : string;
  child_stderr : string
}.

(** The host: what [shutil.which] resolves a command name to, and what
    happens when a command line is started (the start fails with an
    [OSError], or a child runs to its end).  A command line whose program
    is a bare name makes the operating system search the path on its own;
    that search is part of [launch] and is independent of [path_lookup]. *)
Record Host : Type := mkHost {
  path_lookup : string -> option string;
  launch : list string -> oserror + Child
}.

(** Interactions with the operating system.  [EvWhich] is a call of
    [shutil.which]; [EvSpawn] is the request to start a child with the
    given command line; [EvCapture] is the parent reading, through pipes,
    what the child wrote to its standard output and standard error;
    [EvReap] is the end of the wait for that child, with the status
    collected. *)
Inductive event : Type :=
| EvWhich (cmd : string)
| EvSpawn (argv : list string)
| EvCapture (out err : string)
| EvReap (status : Z).

Record World : Type := mkWorld {
  host : Host;
  trace : list event
}.

Definition emit (evs : list event) (w : World) : World :=
  {| host := host w; trace := trace w ++ evs |}.

Definition is_spawn (ev : event) : bool :=
  match ev with
  | EvSpawn _ => true
  | _ => false
  end.

Definition is_reap (ev : event) : bool :=
  match ev with
  | EvReap _ => true
  | _ => false
  end.

(** Number of child processes requested, and number collected. *)
Definition spawn_count (tr : list event) : nat :=
  List.length (filter is_spawn tr).

Definition reap_count (tr : list event) : nat :=
  List.length (filter is_reap tr).

(** What the parent has read of its children's output, in order. *)
Fixpoint captured (tr : list event) : list (string * string) :=
  match tr with
  | [] => []
  | EvCapture out err :: tr' => (out, err) :: captured tr'
  | _ :: tr' => captured tr'
  end.

(** The command lines of the children requested, in order. *)
Fixpoint spawned (tr : list event) : list (list string) :=
  match tr with
  | [] => []
  | EvSpawn argv :: tr' => argv :: spawned tr'
  | _ :: tr' => spawned tr'
  end.

End OS.

Import OS.

(** ** The monad of Python computations *)

Definition Py (A : Type) : Type := World -> result A * World.

Definition ret {A : Type} (a : A) : Py A :=
  fun w => (Return a, w).

Definition raise {A : Type} (e : exn) : Py A :=
  fun w => (Raise e, w).

Definition bind {A B : Type} (m : Py A) (k : A -> Py B) : Py B :=
  fun w =>
    match m w with
    | (Return a, w') => k a w'
    | (Raise e, w') => (Raise e, w')
    end.

Declare Scope py_scope.
Delimit Scope py_scope with py.

Notation "x <- m ;; k" := (bind m (fun x => k))
  (at level 100, m at next level, right associativity) : py_scope.

Open Scope py_scope.

(** ** The two library calls the module makes *)

(** [shutil.which(cmd)]: the path the command name resolves to on the
    search path, or [None].  It only reads the host. *)
Definition shutil_which (cmd : string) : Py (option string) :=
  fun w => (Return (path_lookup (host w) cmd), emit [EvWhich cmd] w).

(** The keyword arguments of [subprocess.run] that decide what the caller
    gets back, with their defaults. *)
Record run_kwargs : Type := mkRunKwargs {
  capture_output : bool;
  check : bool
}.

Definition default_kwargs : run_kwargs :=
  {| capture_output := false; check := false |}.

(** [subprocess.CompletedProcess]. *)
Record CompletedProcess : Type := mkCompletedProcess {
  cp_args : list string;
  returncode : Z;
  stdout : option string;
  stderr : option string
}.

(** [subprocess.run(argv, **kw)]: start the child, wait for it to end,
    collect its status.  Only under [capture_output] is the child given
    pipes, its output read by the parent and handed to the caller;
    otherwise the child inherits the parent's streams.  A nonzero status
    raises only under [check]. *)
Definition subprocess_run (argv : list string) (kw : run_kwargs)
  : Py CompletedProcess :=
  fun w =>
    match launch (host w) argv with
    | inl e => (Raise (EOSError e), emit [EvSpawn argv] w)
    | inr c =>
        let w' :=
          emit (EvSpawn argv
                :: (if capture_output kw
                    then [EvCapture (child_stdout c) (child_stderr c)]
                    else [])
                ++ [EvReap (exit_status c)]) w in
        if check kw && negb (exit_status c =? 0)
        then (Raise (ECalledProcessError (exit_status c) argv), w')
        else (Return {| cp_args := argv;
                        returncode := exit_status c;
                        stdout := if capture_output kw
                                  then Some (child_stdout c) else None;
                        stderr := if capture_output kw
                                  then Some (child_stderr c) else None |},
              w')
    end.

(** ** The module *)

(** [DetectVirtNotFoundError.message]: [return self.args[0]]. *)
Definition message (self : DetectVirtNotFoundError) : result pyval :=
  tuple_getitem (args self) 0.

(** [is_container()]. *)
Definition is_container : Py bool :=
  found <- shutil_which "systemd-detect-virt" ;;
  if is_None found
  then raise (EDetectVirtNotFound
                (mkDetectVirtNotFoundError
                   [PyStr ("executable `systemd-detect-virt` not found. "
                           ++ "cannot determine if machine is a container instance")%string]))
  else
    result <- subprocess_run ["systemd-detect-virt"; "--container"] default_kwargs ;;
    ret (returncode result =? 0).

(** ** Names used in the statements *)

Definition detect_virt : string := "systemd-detect-virt".

Definition detect_argv : list string := ["systemd-detect-virt"; "--container"].

Definition not_found_message : string :=
  "executable `systemd-detect-virt` not found. cannot determine if machine is a container instance".

(** The executable is resolvable on the host's search path. *)
Definition resolvable (w : World) : Prop :=
  exists p, path_lookup (host w) detect_virt = Some p.

(** What the caller of [is_container] sees, and the world it leaves. *)
Definition outcome (w : World) : result bool := fst (is_container w).

Definition after (w : World) : World := snd (is_container w).

(** The status the started tool ends with, or the error of the start:
    the child with its output left out. *)
Definition tool_status (h : Host) : oserror + Z :=
  match launch h detect_argv with
  | inl e => inl e
  | inr c => inr (exit_status c)
  end.

(** ** Sample hosts *)

(** A host on which the tool is installed and ends with [status], having
    written [out] and [err]. *)
Definition host_with_tool (status : Z) (out err : string) : Host :=
  {| path_lookup := fun cmd =>
       if String.eqb cmd "systemd-detect-virt"
       then Some "/usr/bin/systemd-detect-virt" else None;
     launch := fun argv =>
       inr {| exit_status := status; child_stdout := out; child_stderr := err |} |}.

(** A host without the tool: starting anything fails with ENOENT. *)
Definition host_without_tool : Host :=
  {| path_lookup := fun _ => None;
     launch := fun _ => inl (FileNotFoundError 2 "No such file or directory") |}.

(** A host on which the tool is found but may not be started (EACCES). *)
Definition host_denied : Host :=
  {| path_lookup := fun cmd =>
       if String.eqb cmd "systemd-detect-virt"
       then Some "/usr/bin/systemd-detect-virt" else None;
     launch := fun _ => inl (PermissionError 13 "Permission denied") |}.

Definition fresh (h : Host) : World := {| host := h; trace := [] |}.

(** ** The integration test *)

(** What running a test function can raise: the failure of its [assert],
    or an exception of the library on its way through the test. *)
Inductive test_exn : Type :=
| AssertionError
| Propagated (e : exn).

(** [tests/integration/is_container/test_is_container.py]:
    [assert is_container() is True].  The function returns [None] when
    the assertion holds. *)
Definition test_is_container (w : World) : (unit + test_exn) * World :=
  match is_container w with
  | (Return b, w') =>
      (if Bool.eqb b true then inl tt else inr AssertionError, w')
  | (Raise e, w') => (inr (Propagated e), w')
  end.

(** ** More names used in the statements *)

Definition is_which (ev : event) : bool :=
  match ev with
  | EvWhich _ => true
  | _ => false
  end.

(** Number of calls of [shutil.which] in a log. *)
Definition which_count (tr : list event) : nat :=
  List.length (filter is_which tr).

(** Every child asked for has been collected. *)
Definition all_reaped (tr : list event) : Prop :=
  reap_count tr = spawn_count tr.

(** A host on which the command name resolves to [path] and the tool ends
    with [status]. *)
Definition host_with_tool_at (path : string) (status : Z) : Host :=
  {| path_lookup := fun cmd =>
       if String.eqb cmd "systemd-detect-virt" then Some path else None;
     launch := fun argv =>
       inr {| exit_status := status; child_stdout := ""; child_stderr := "" |} |}.

(** ** The three paths through [is_container] *)

Lemma not_found_message_eq :
  ("executable `systemd-detect-virt` not found. "
   ++ "cannot determine if machine is a container instance")%string
  = not_found_message.
Proof. reflexivity. Qed.

Lemma emit_host (evs : list event) (w : World) : host (emit evs w) = host w.
Proof. reflexivity. Qed.

Lemma emit_trace (evs : list event) (w : World) :
  trace (emit evs w) = trace w ++ evs.
Proof. reflexivity. Qed.

(** The executable is missing: the call raises after the lookup alone. *)
Lemma is_container_missing (w : World) :
  path_lookup (host w) detect_virt = None ->
  is_container w
  = (Raise (EDetectVirtNotFound
              (mkDetectVirtNotFoundError [PyStr not_found_message])),
     emit [EvWhich detect_virt] w).
Proof.
  unfold detect_virt. intros Hnone.
  unfold is_container, bind, shutil_which.
  rewrite Hnone. reflexivity.
Qed.

(** The executable is found but cannot be started. *)
Lemma is_container_not_started (w : World) (p : string) (e : oserror) :
  path_lookup (host w) detect_virt = Some p ->
  launch (host w) detect_argv = inl e ->
  is_container w
  = (Raise (EOSError e),
     emit [EvSpawn detect_argv] (emit [EvWhich detect_virt] w)).
Proof.
  unfold detect_virt, detect_argv. intros Hsome Hlaunch.
  unfold is_container, bind, shutil_which, subprocess_run.
  rewrite Hsome. cbn [is_None]. rewrite emit_host, Hlaunch. reflexivity.
Qed.

(** The executable is found, started, and runs to its end. *)
Lemma is_container_completed (w : World) (p : string) (c : Child) :
  path_lookup (host w) detect_virt = Some p ->
  launch (host w) detect_argv = inr c ->
  is_container w
  = (Return (exit_status c =? 0),
     emit [EvSpawn detect_argv; EvReap (exit_status c)]
          (emit [EvWhich detect_virt] w)).
Proof.
  unfold detect_virt, detect_argv. intros Hsome Hlaunch.
  unfold is_container, bind, shutil_which, subprocess_run.
  rewrite Hsome. cbn [is_None]. rewrite emit_host, Hlaunch. reflexivity.
Qed.

(** Every call takes one of the three paths. *)
Lemma is_container_cases (w : World) :
  (path_lookup (host w) detect_virt = None)
  \/ (exists p e, path_lookup (host w) detect_virt = Some p
                  /\ launch (host w) detect_argv = inl e)
  \/ (exists p c, path_lookup (host w) detect_virt = Some p
                  /\ launch (host w) detect_argv = inr c).
Proof.
  destruct (path_lookup (host w) detect_virt) as [p|] eqn:Hp.
  - right. destruct (launch (host w) detect_argv) as [e|c] eqn:Hl.
    + left. now exists p, e.
    + right. now exists p, c.
  - now left.
Qed.

Lemma spawn_count_app (tr1 tr2 : list event) :
  spawn_count (tr1 ++ tr2) = (spawn_count tr1 + spawn_count tr2)%nat.
Proof. unfold spawn_count. now rewrite filter_app, length_app. Qed.

Lemma reap_count_app (tr1 tr2 : list event) :
  reap_count (tr1 ++ tr2) = (reap_count tr1 + reap_count tr2)%nat.
Proof. unfold reap_count. now rewrite filter_app, length_app. Qed.

Lemma spawned_app (tr1 tr2 : list event) :
  spawned (tr1 ++ tr2) = spawned tr1 ++ spawned tr2.
Proof.
  induction tr1 as [|ev tr1 IH]; [reflexivity|].
  destruct ev; cbn [spawned app]; now rewrite IH.
Qed.

(** The host is never changed by a call. *)
Lemma is_container_host (w : World) : host (after w) = host w.
Proof.
  unfold after.
  destruct (is_container_cases w) as [Hn | [(p & e & Hp & Hl) | (p & c & Hp & Hl)]].
  - now rewrite (is_container_missing w Hn).
  - now rewrite (is_container_not_started w p e Hp Hl).
  - now rewrite (is_container_completed w p c Hp Hl).
Qed.

(** ** Exit status to boolean *)

(** C1. Whenever [systemd-detect-virt] is resolvable on the search path and
    the started process ends with status 0, [is_container()] returns
    [True]. *)
Theorem is_container_true_on_exit_zero (w : World) (c : Child) :
  resolvable w ->
  launch (host w) detect_argv = inr c ->
  exit_status c = 0 ->
  outcome w = Return true.
Proof.
  intros [p Hp] Hl Hz. unfold outcome.
  rewrite (is_container_completed w p c Hp Hl), Hz. reflexivity.
Qed.

Lemma is_container_true_on_exit_zero_witness :
  outcome (fresh (host_with_tool 0 "lxc" "")) = Return true.
Proof.
  apply (is_container_true_on_exit_zero
           (fresh (host_with_tool 0 "lxc" ""))
           {| exit_status := 0; child_stdout := "lxc"; child_stderr := "" |}).
  - exists "/usr/bin/systemd-detect-virt". reflexivity.
  - reflexivity.
  - reflexivity.
Defined.

(** C2. Whenever [systemd-detect-virt] is resolvable and the started
    process ends with a nonzero status, [is_container()] returns [False];
    the answer is the same for every nonzero status (a negative one, from a
    signal, included), so any two such calls agree. *)
Theorem is_container_false_on_exit_nonzero (w : World) (c : Child) :
  resolvable w ->
  launch (host w) detect_argv = inr c ->
  exit_status c <> 0 ->
  outcome w = Return false
  /\ (forall (w' : World) (c' : Child),
        resolvable w' ->
        launch (host w') detect_argv = inr c' ->
        exit_status c' <> 0 ->
        outcome w' = outcome w).
Proof.
  assert (Hfalse : forall w0 c0, resolvable w0 ->
            launch (host w0) detect_argv = inr c0 ->
            exit_status c0 <> 0 -> outcome w0 = Return false).
  { intros w0 c0 [p Hp] Hl Hnz. unfold outcome.
    rewrite (is_container_completed w0 p c0 Hp Hl).
    cbn [fst]. f_equal. now apply Z.eqb_neq. }
  intros Hr Hl Hnz. split.
  - now apply (Hfalse w c).
  - intros w' c' Hr' Hl' Hnz'.
    rewrite (Hfalse w c Hr Hl Hnz). now apply (Hfalse w' c').
Qed.

Lemma is_container_false_on_exit_nonzero_witness :
  outcome (fresh (host_with_tool 1 "none" "")) = Return false
  /\ outcome (fresh (host_with_tool (-9) "" "killed"))
     = outcome (fresh (host_with_tool 1 "none" "")).
Proof.
  pose proof (is_container_false_on_exit_nonzero
                (fresh (host_with_tool 1 "none" ""))
                {| exit_status := 1; child_stdout := "none"; child_stderr := "" |}) as H.
  destruct H as [Hf Hsame].
  - exists "/usr/bin/systemd-detect-virt". reflexivity.
  - reflexivity.
  - discriminate.
  - split.
    + exact Hf.
    + apply (Hsame (fresh (host_with_tool (-9) "" "killed"))
                   {| exit_status := -9; child_stdout := ""; child_stderr := "killed" |}).
      * exists "/usr/bin/systemd-detect-virt". reflexivity.
      * reflexivity.
      * discriminate.
Defined.

(** ** The missing executable and other failures *)

Lemma not_resolvable_lookup (w : World) :
  ~ resolvable w -> path_lookup (host w) detect_virt = None.
Proof.
  intros Hnr. destruct (path_lookup (host w) detect_virt) as [p|] eqn:Hp.
  - exfalso. apply Hnr. now exists p.
  - reflexivity.
Qed.

Lemma lookup_not_resolvable (w : World) :
  path_lookup (host w) detect_virt = None -> ~ resolvable w.
Proof. intros Hn [p Hp]. congruence. Qed.

Lemma message_cons (a : pyval) (rest : list pyval) :
  message (mkDetectVirtNotFoundError (a :: rest)) = Return a.
Proof.
  unfold message, tuple_getitem. cbn [args Z.ltb Z.compare orb].
  replace (Z.of_nat (Datatypes.length (a :: rest)) <=? 0) with false.
  - reflexivity.
  - symmetry. apply Z.leb_gt. cbn [Datatypes.length]. lia.
Qed.

(** An exception built without arguments has no first argument to
    return: reading [message] raises [IndexError]. *)
Lemma message_no_args :
  message (mkDetectVirtNotFoundError [])
  = Raise (EIndexError "tuple index out of range").
Proof. reflexivity. Qed.

(** C3. Whenever no executable named [systemd-detect-virt] is resolvable on
    the search path, the call raises [DetectVirtNotFoundError], the error
    carries a message (a non-empty string, read back through [message]),
    and no boolean is returned. *)
Theorem is_container_raises_when_missing (w : World) :
  ~ resolvable w ->
  (exists (e : DetectVirtNotFoundError) (m : string),
      outcome w = Raise (EDetectVirtNotFound e)
      /\ message e = Return (PyStr m)
      /\ m <> ""%string)
  /\ (forall b : bool, outcome w <> Return b).
Proof.
  intros Hnr. apply not_resolvable_lookup in Hnr.
  unfold outcome. rewrite (is_container_missing w Hnr). cbn [fst]. split.
  - exists (mkDetectVirtNotFoundError [PyStr not_found_message]), not_found_message.
    split; [reflexivity|]. split; [apply message_cons|discriminate].
  - intros b. discriminate.
Qed.

Lemma is_container_raises_when_missing_witness :
  (exists (e : DetectVirtNotFoundError) (m : string),
      outcome (fresh host_without_tool) = Raise (EDetectVirtNotFound e)
      /\ message e = Return (PyStr m)
      /\ m <> ""%string)
  /\ (forall b : bool, outcome (fresh host_without_tool) <> Return b).
Proof.
  apply (is_container_raises_when_missing (fresh host_without_tool)).
  intros [p Hp]. discriminate Hp.
Defined.

(** C4. [is_container()] turns exactly one condition into its own error,
    the missing executable.  A failure to start the process (a permission
    error, say) reaches the caller as the very exception that was raised;
    whatever the call raises is either the named error, on a host where
    the executable is not resolvable, or such a start failure unchanged;
    and the named error is never raised when the executable is resolvable. *)
Theorem is_container_other_failures_propagate (w : World) :
  (forall e : oserror,
      resolvable w ->
      launch (host w) detect_argv = inl e ->
      outcome w = Raise (EOSError e))
  /\ (forall x : exn,
        outcome w = Raise x ->
        (~ resolvable w /\ exists d, x = EDetectVirtNotFound d)
        \/ (resolvable w
            /\ exists e, launch (host w) detect_argv = inl e /\ x = EOSError e))
  /\ (forall d : DetectVirtNotFoundError,
        outcome w = Raise (EDetectVirtNotFound d) -> ~ resolvable w).
Proof.
  unfold outcome.
  destruct (is_container_cases w) as [Hn | [(p & e & Hp & Hl) | (p & c & Hp & Hl)]].
  - rewrite (is_container_missing w Hn). cbn [fst].
    pose proof (lookup_not_resolvable w Hn) as Hnr.
    repeat split.
    + intros e Hr. contradiction.
    + intros x Hx. left. split; [exact Hnr|].
      injection Hx as <-. eexists. reflexivity.
    + intros d _. exact Hnr.
  - rewrite (is_container_not_started w p e Hp Hl). cbn [fst].
    assert (Hr : resolvable w) by now exists p.
    repeat split.
    + intros e' _ He'. congruence.
    + intros x Hx. right. split; [exact Hr|].
      injection Hx as <-. now exists e.
    + intros d Hd. discriminate Hd.
  - rewrite (is_container_completed w p c Hp Hl). cbn [fst].
    repeat split.
    + intros e' _ He'. congruence.
    + intros x Hx. discriminate Hx.
    + intros d Hd. discriminate Hd.
Qed.

Lemma is_container_other_failures_propagate_witness :
  outcome (fresh host_denied)
  = Raise (EOSError (PermissionError 13 "Permission denied")).
Proof.
  apply (proj1 (is_container_other_failures_propagate (fresh host_denied))).
  - exists "/usr/bin/systemd-detect-virt". reflexivity.
  - reflexivity.
Defined.

(** ** The command line and what decides the answer *)

(** C5. Whenever the executable is resolvable, the one program started is
    [systemd-detect-virt] with the single argument [--container], and the
    boolean returned is [status == 0] for the exit status of that process:
    a function of the status alone, in which the process's output does not
    occur. *)
Theorem is_container_runs_tool_with_container_flag (w : World) :
  resolvable w ->
  spawned (trace (after w))
  = spawned (trace w) ++ [["systemd-detect-virt"; "--container"]%string]
  /\ (forall c : Child,
        launch (host w) ["systemd-detect-virt"; "--container"]%string = inr c ->
        outcome w = Return (exit_status c =? 0)).
Proof.
  intros [p Hp]. unfold outcome, after. split.
  - destruct (launch (host w) detect_argv) as [e|c] eqn:Hl.
    + rewrite (is_container_not_started w p e Hp Hl). cbn [snd].
      rewrite !emit_trace, <- app_assoc, spawned_app. reflexivity.
    + rewrite (is_container_completed w p c Hp Hl). cbn [snd].
      rewrite !emit_trace, <- app_assoc, spawned_app. reflexivity.
  - intros c Hl. now rewrite (is_container_completed w p c Hp Hl).
Qed.

Lemma is_container_runs_tool_with_container_flag_witness :
  spawned (trace (after (fresh (host_with_tool 1 "none" ""))))
  = [["systemd-detect-virt"; "--container"]%string]
  /\ outcome (fresh (host_with_tool 1 "none" "")) = Return false.
Proof.
  destruct (is_container_runs_tool_with_container_flag
              (fresh (host_with_tool 1 "none" ""))) as [Hargv Hres].
  - exists "/usr/bin/systemd-detect-virt". reflexivity.
  - split.
    + exact Hargv.
    + apply (Hres {| exit_status := 1; child_stdout := "none"; child_stderr := "" |}).
      reflexivity.
Defined.

(** ** Determinism, effects and the error message *)

(** The outcome is a function of the lookup result and of the tool's
    status. *)
Lemma outcome_from_observations (w : World) :
  outcome w
  = match path_lookup (host w) detect_virt with
    | None => Raise (EDetectVirtNotFound
                       (mkDetectVirtNotFoundError [PyStr not_found_message]))
    | Some _ => match tool_status (host w) with
                | inl e => Raise (EOSError e)
                | inr rc => Return (rc =? 0)
                end
    end.
Proof.
  unfold outcome, tool_status.
  destruct (is_container_cases w) as [Hn | [(p & e & Hp & Hl) | (p & c & Hp & Hl)]].
  - now rewrite (is_container_missing w Hn), Hn.
  - now rewrite (is_container_not_started w p e Hp Hl), Hp, Hl.
  - now rewrite (is_container_completed w p c Hp Hl), Hp, Hl.
Qed.

(** C6. Two calls made under the same host state (the same result of
    resolving the executable and, when it is resolvable, the same status of
    the started process) have the same outcome, be it a boolean or an
    error; in particular a call repeated right after another, the host
    unchanged, gives the first call's outcome again. *)
Theorem is_container_deterministic (w1 w2 : World) :
  path_lookup (host w1) detect_virt = path_lookup (host w2) detect_virt ->
  (resolvable w1 -> tool_status (host w1) = tool_status (host w2)) ->
  outcome w1 = outcome w2 /\ outcome (after w1) = outcome w1.
Proof.
  intros Hlook Hstatus. split.
  - rewrite !outcome_from_observations, <- Hlook.
    destruct (path_lookup (host w1) detect_virt) as [p|] eqn:Hp; [|reflexivity].
    rewrite <- Hstatus; [reflexivity|]. now exists p.
  - rewrite !outcome_from_observations, is_container_host. reflexivity.
Qed.

Lemma is_container_deterministic_witness :
  outcome (fresh (host_with_tool 0 "lxc" ""))
  = outcome {| host := host_with_tool 0 "" "note"; trace := [EvWhich "sh"] |}
  /\ outcome (after (fresh (host_with_tool 0 "lxc" "")))
     = outcome (fresh (host_with_tool 0 "lxc" "")).
Proof.
  apply (is_container_deterministic
           (fresh (host_with_tool 0 "lxc" ""))
           {| host := host_with_tool 0 "" "note"; trace := [EvWhich "sh"] |}).
  - reflexivity.
  - intros _. reflexivity.
Defined.

(** C7. Whenever the executable is resolvable, one call asks for exactly
    one child process and changes nothing else: the host is as before and
    the log grows by the lookup, the one start and, when the child
    started, the collection of its status, which comes before the call
    returns a value computed from it.  There is no retry (the count is one
    whatever the status, and also when the start fails) and no cache (a
    second call starts a second child). *)
Theorem is_container_spawns_once (w : World) :
  resolvable w ->
  host (after w) = host w
  /\ spawn_count (trace (after w)) = (spawn_count (trace w) + 1)%nat
  /\ (forall c : Child,
        launch (host w) detect_argv = inr c ->
        trace (after w)
        = trace w ++ [EvWhich detect_virt; EvSpawn detect_argv;
                      EvReap (exit_status c)]
        /\ reap_count (trace (after w)) = (reap_count (trace w) + 1)%nat
        /\ outcome w = Return (exit_status c =? 0))
  /\ (forall e : oserror,
        launch (host w) detect_argv = inl e ->
        trace (after w)
        = trace w ++ [EvWhich detect_virt; EvSpawn detect_argv])
  /\ spawn_count (trace (after (after w))) = (spawn_count (trace w) + 2)%nat.
Proof.
  assert (Hone : forall w0, resolvable w0 ->
            spawn_count (trace (after w0)) = (spawn_count (trace w0) + 1)%nat).
  { intros w0 [p Hp]. unfold after.
    destruct (launch (host w0) detect_argv) as [e|c] eqn:Hl.
    - rewrite (is_container_not_started w0 p e Hp Hl). cbn [snd].
      rewrite !emit_trace, !spawn_count_app. cbn. lia.
    - rewrite (is_container_completed w0 p c Hp Hl). cbn [snd].
      rewrite !emit_trace, !spawn_count_app. cbn. lia. }
  intros Hr. split; [apply is_container_host|].
  split; [now apply Hone|].
  destruct Hr as [p Hp]. split; [|split].
  - intros c Hl. unfold after, outcome.
    rewrite (is_container_completed w p c Hp Hl). cbn [fst snd].
    rewrite !emit_trace, <- app_assoc, !reap_count_app. now repeat split.
  - intros e Hl. unfold after.
    rewrite (is_container_not_started w p e Hp Hl). cbn [snd].
    now rewrite !emit_trace, <- app_assoc.
  - assert (Hr' : resolvable (after w)).
    { exists p. now rewrite is_container_host. }
    rewrite (Hone (after w) Hr'), (Hone w); [lia|now exists p].
Qed.

Lemma is_container_spawns_once_witness :
  spawn_count (trace (after (fresh (host_with_tool 3 "" "")))) = 1%nat
  /\ spawn_count (trace (after (after (fresh (host_with_tool 3 "" ""))))) = 2%nat.
Proof.
  destruct (is_container_spawns_once (fresh (host_with_tool 3 "" "")))
    as (_ & Hone & _ & _ & Htwo).
  - exists "/usr/bin/systemd-detect-virt". reflexivity.
  - split; [exact Hone|exact Htwo].
Defined.



(** C9, counterexample. [message] does not always return: on
    [DetectVirtNotFoundError()], built without arguments, [self.args] is
    the empty tuple and [self.args[0]] raises [IndexError]. *)
Lemma message_does_not_always_return :
  message (mkDetectVirtNotFoundError [])
  = Raise (EIndexError "tuple index out of range")
  /\ ~ (forall e : DetectVirtNotFoundError, exists v : pyval, message e = Return v).
Proof.
  split; [reflexivity|].
  intros Hall. destruct (Hall (mkDetectVirtNotFoundError [])) as [v Hv].
  discriminate Hv.
Qed.

(** C9, amended. The error raised for a missing executable carries exactly
    the message "executable `systemd-detect-virt` not found. cannot
    determine if machine is a container instance" as its one argument;
    [DetectVirtNotFoundError.message] returns the first argument of every
    exception constructed with at least one argument, and raises
    [IndexError] on an exception constructed with none. *)
Theorem not_found_error_message (w : World) :
  (~ resolvable w ->
   outcome w
   = Raise (EDetectVirtNotFound
              (mkDetectVirtNotFoundError
                 [PyStr "executable `systemd-detect-virt` not found. cannot determine if machine is a container instance"])))
  /\ (forall d : DetectVirtNotFoundError,
        outcome w = Raise (EDetectVirtNotFound d) ->
        message d
        = Return (PyStr "executable `systemd-detect-virt` not found. cannot determine if machine is a container instance"))
  /\ (forall (a : pyval) (rest : list pyval),
        message (mkDetectVirtNotFoundError (a :: rest)) = Return a)
  /\ message (mkDetectVirtNotFoundError [])
     = Raise (EIndexError "tuple index out of range").
Proof.
  split; [|split; [|split]].
  - intros Hnr. apply not_resolvable_lookup in Hnr.
    unfold outcome. now rewrite (is_container_missing w Hnr).
  - intros d Hd. rewrite outcome_from_observations in Hd.
    destruct (path_lookup (host w) detect_virt) as [p|].
    + destruct (tool_status (host w)); discriminate Hd.
    + injection Hd as <-. apply message_cons.
  - apply message_cons.
  - apply message_no_args.
Qed.

Lemma not_found_error_message_witness :
  outcome (fresh host_without_tool)
  = Raise (EDetectVirtNotFound
             (mkDetectVirtNotFoundError
                [PyStr "executable `systemd-detect-virt` not found. cannot determine if machine is a container instance"])).
Proof.
  apply (proj1 (not_found_error_message (fresh host_without_tool))).
  intros [p Hp]. discriminate Hp.
Defined.

Lemma captured_app (tr1 tr2 : list event) :
  captured (tr1 ++ tr2) = captured tr1 ++ captured tr2.
Proof.
  induction tr1 as [|ev tr1 IH]; [reflexivity|].
  destruct ev; cbn [captured app]; now rewrite IH.
Qed.

(** C10. Two calls whose started processes end with the same status
    return the same boolean, whatever the two processes wrote to their
    standard output and standard error; and neither call captures its
    child's output: nothing the children wrote is read by the parent
    during a call of [is_container()]. *)
Theorem is_container_ignores_output (w1 w2 : World) (c1 c2 : Child) :
  resolvable w1 ->
  resolvable w2 ->
  launch (host w1) detect_argv = inr c1 ->
  launch (host w2) detect_argv = inr c2 ->
  exit_status c1 = exit_status c2 ->
  outcome w1 = outcome w2
  /\ (exists b : bool, outcome w1 = Return b)
  /\ captured (trace (after w1)) = captured (trace w1)
  /\ captured (trace (after w2)) = captured (trace w2).
Proof.
  intros [p1 Hp1] [p2 Hp2] Hl1 Hl2 Hst. unfold outcome, after.
  rewrite (is_container_completed w1 p1 c1 Hp1 Hl1).
  rewrite (is_container_completed w2 p2 c2 Hp2 Hl2).
  cbn [fst snd]. rewrite Hst. split; [reflexivity|]. split; [|split].
  - eexists. reflexivity.
  - rewrite !emit_trace, !captured_app. cbn [captured].
    now rewrite !app_nil_r.
  - rewrite !emit_trace, !captured_app. cbn [captured].
    now rewrite !app_nil_r.
Qed.

Lemma is_container_ignores_output_witness :
  outcome (fresh (host_with_tool 0 "lxc" ""))
  = outcome (fresh (host_with_tool 0 "docker" "warning: degraded"))
  /\ captured (trace (after (fresh (host_with_tool 0 "lxc" "")))) = [].
Proof.
  refine ((fun H => conj (proj1 H) (proj1 (proj2 (proj2 H)))) _).
  apply (is_container_ignores_output
           (fresh (host_with_tool 0 "lxc" ""))
           (fresh (host_with_tool 0 "docker" "warning: degraded"))
           {| exit_status := 0; child_stdout := "lxc"; child_stderr := "" |}
           {| exit_status := 0; child_stdout := "docker";
              child_stderr := "warning: degraded" |}).
  - exists "/usr/bin/systemd-detect-virt". reflexivity.
  - exists "/usr/bin/systemd-detect-virt". reflexivity.
  - reflexivity.
  - reflexivity.
  - reflexivity.
Defined.

(** ** When the answer is [True], and when [False] *)

Lemma resolvable_some (w : World) (p : string) :
  path_lookup (host w) detect_virt = Some p -> resolvable w.
Proof. intros Hp. now exists p. Qed.

(** X1. [is_container()] returns [True] exactly when the executable is
    resolvable and the started tool ends with status 0: a [True] answer is
    never produced without a process that ran and reported success. *)
Theorem is_container_true_iff (w : World) :
  outcome w = Return true
  <-> resolvable w /\ tool_status (host w) = inr 0.
Proof.
  rewrite outcome_from_observations. split.
  - destruct (path_lookup (host w) detect_virt) as [p|] eqn:Hp; [|discriminate].
    destruct (tool_status (host w)) as [e|rc]; [discriminate|].
    intros Hb. injection Hb as Hb. apply Z.eqb_eq in Hb. subst rc.
    split; [now apply (resolvable_some w p)|reflexivity].
  - intros [[p Hp] Hs]. now rewrite Hp, Hs.
Qed.

Lemma is_container_true_iff_witness :
  outcome (fresh (host_with_tool 0 "lxc" "")) = Return true.
Proof.
  apply (proj2 (is_container_true_iff (fresh (host_with_tool 0 "lxc" "")))).
  split.
  - exists "/usr/bin/systemd-detect-virt". reflexivity.
  - reflexivity.
Defined.

(** X2. [is_container()] returns [False] exactly when the executable is
    resolvable and the started tool ends with some nonzero status: [False]
    is never the answer for a missing tool or for a tool that could not be
    started. *)
Theorem is_container_false_iff (w : World) :
  outcome w = Return false
  <-> resolvable w
      /\ exists rc : Z, tool_status (host w) = inr rc /\ rc <> 0.
Proof.
  rewrite outcome_from_observations. split.
  - destruct (path_lookup (host w) detect_virt) as [p|] eqn:Hp; [|discriminate].
    destruct (tool_status (host w)) as [e|rc]; [discriminate|].
    intros Hb. injection Hb as Hb. apply Z.eqb_neq in Hb.
    split; [now apply (resolvable_some w p)|now exists rc].
  - intros [[p Hp] (rc & Hs & Hnz)]. rewrite Hp, Hs.
    f_equal. now apply Z.eqb_neq.
Qed.

Lemma is_container_false_iff_witness :
  outcome (fresh (host_with_tool 1 "none" "")) = Return false.
Proof.
  apply (proj2 (is_container_false_iff (fresh (host_with_tool 1 "none" "")))).
  split.
  - exists "/usr/bin/systemd-detect-virt". reflexivity.
  - exists 1. split; [reflexivity|discriminate].
Defined.

(** X3. The path that [shutil.which] resolves is only tested against
    [None]: the tool is started by its bare name.  Two hosts that resolve
    the name to different paths but start the command line alike give the
    same outcome and the same new log entries. *)
Theorem is_container_ignores_resolved_path (w1 w2 : World) :
  resolvable w1 ->
  resolvable w2 ->
  launch (host w1) detect_argv = launch (host w2) detect_argv ->
  trace w1 = trace w2 ->
  outcome w1 = outcome w2 /\ trace (after w1) = trace (after w2).
Proof.
  intros [p1 Hp1] [p2 Hp2] Hl Ht. unfold outcome, after.
  destruct (launch (host w2) detect_argv) as [e|c] eqn:Hl2.
  - rewrite (is_container_not_started w1 p1 e Hp1 Hl).
    rewrite (is_container_not_started w2 p2 e Hp2 Hl2).
    cbn [fst snd]. now rewrite !emit_trace, Ht.
  - rewrite (is_container_completed w1 p1 c Hp1 Hl).
    rewrite (is_container_completed w2 p2 c Hp2 Hl2).
    cbn [fst snd]. now rewrite !emit_trace, Ht.
Qed.

Lemma is_container_ignores_resolved_path_witness :
  outcome (fresh (host_with_tool_at "/usr/bin/systemd-detect-virt" 0))
  = outcome (fresh (host_with_tool_at "/opt/tools/systemd-detect-virt" 0))
  /\ trace (after (fresh (host_with_tool_at "/usr/bin/systemd-detect-virt" 0)))
     = trace (after (fresh (host_with_tool_at "/opt/tools/systemd-detect-virt" 0))).
Proof.
  apply (is_container_ignores_resolved_path
           (fresh (host_with_tool_at "/usr/bin/systemd-detect-virt" 0))
           (fresh (host_with_tool_at "/opt/tools/systemd-detect-virt" 0))).
  - exists "/usr/bin/systemd-detect-virt". reflexivity.
  - exists "/opt/tools/systemd-detect-virt". reflexivity.
  - reflexivity.
  - reflexivity.
Defined.

(** ** The lookup and the log *)

Lemma which_count_app (tr1 tr2 : list event) :
  which_count (tr1 ++ tr2) = (which_count tr1 + which_count tr2)%nat.
Proof. unfold which_count. now rewrite filter_app, length_app. Qed.

(** X4. Every call of [is_container()] calls [shutil.which] exactly once,
    and does so before anything else: the first entry a call adds to the
    log is [shutil.which] on [systemd-detect-virt], whatever the host and
    whatever was done before.  (The search the operating system makes when
    the bare name is started is not a call of [shutil.which].) *)
Theorem is_container_looks_up_once_first (w : World) :
  which_count (trace (after w)) = (which_count (trace w) + 1)%nat
  /\ nth_error (trace (after w)) (List.length (trace w))
     = Some (EvWhich "systemd-detect-virt"%string).
Proof.
  unfold after.
  destruct (is_container_cases w) as [Hn | [(p & e & Hp & Hl) | (p & c & Hp & Hl)]].
  - rewrite (is_container_missing w Hn). cbn [snd].
    rewrite emit_trace, which_count_app. split; [reflexivity|].
    rewrite nth_error_app2, Nat.sub_diag by lia. reflexivity.
  - rewrite (is_container_not_started w p e Hp Hl). cbn [snd].
    rewrite !emit_trace, <- app_assoc, which_count_app. split; [reflexivity|].
    rewrite nth_error_app2, Nat.sub_diag by lia. reflexivity.
  - rewrite (is_container_completed w p c Hp Hl). cbn [snd].
    rewrite !emit_trace, <- app_assoc, which_count_app. split; [reflexivity|].
    rewrite nth_error_app2, Nat.sub_diag by lia. reflexivity.
Qed.

(** X5. A call that does not end in a start failure leaves no child
    behind: if every child asked for so far had been collected, the same
    holds after the call, on the missing-executable path (nothing started)
    as on the path where the tool ran (started and collected). *)
Theorem is_container_keeps_all_reaped (w : World) :
  all_reaped (trace w) ->
  (forall e : oserror, outcome w <> Raise (EOSError e)) ->
  all_reaped (trace (after w)).
Proof.
  unfold all_reaped, outcome, after. intros Hbal Hnofail.
  destruct (is_container_cases w) as [Hn | [(p & e & Hp & Hl) | (p & c & Hp & Hl)]].
  - rewrite (is_container_missing w Hn). cbn [snd].
    rewrite emit_trace, reap_count_app, spawn_count_app, Hbal. reflexivity.
  - exfalso. apply (Hnofail e).
    now rewrite (is_container_not_started w p e Hp Hl).
  - rewrite (is_container_completed w p c Hp Hl). cbn [snd].
    rewrite !emit_trace, !reap_count_app, !spawn_count_app, Hbal. reflexivity.
Qed.

Lemma is_container_keeps_all_reaped_witness :
  all_reaped (trace (after (after (fresh (host_with_tool 1 "none" ""))))).
Proof.
  apply (is_container_keeps_all_reaped (after (fresh (host_with_tool 1 "none" "")))).
  - reflexivity.
  - intros e. discriminate.
Defined.

(** ** The [message] property on every instance *)

(** X6. Reading [message] raises exactly on an instance built without
    arguments, and what it raises is then [IndexError]; on every other
    instance it returns, and the value returned is the head of [args]. *)
Theorem message_raises_iff_no_args (e : DetectVirtNotFoundError) :
  ((exists x : exn, message e = Raise x) <-> args e = [])
  /\ (forall x : exn,
        message e = Raise x -> x = EIndexError "tuple index out of range")
  /\ (forall v : pyval,
        message e = Return v <-> exists rest, args e = v :: rest).
Proof.
  destruct e as [[|a rest]]; cbn [args].
  - rewrite message_no_args. split; [|split].
    + split; [reflexivity|]. intros _. eexists. reflexivity.
    + intros x Hx. now injection Hx as <-.
    + intros v. split; [discriminate|]. intros [r Hr]. discriminate Hr.
  - rewrite message_cons. split; [|split].
    + split; [intros [x Hx]; discriminate Hx|discriminate].
    + intros x Hx. discriminate Hx.
    + intros v. split.
      * intros Hv. injection Hv as <-. now exists rest.
      * intros [r Hr]. now injection Hr as <- _.
Qed.

(** ** The integration test *)

(** The test's result, read off the lookup and the tool's status. *)
Lemma test_is_container_result (w : World) :
  fst (test_is_container w)
  = match outcome w with
    | Return true => inl tt
    | Return false => inr AssertionError
    | Raise e => inr (Propagated e)
    end.
Proof.
  unfold test_is_container, outcome.
  destruct (is_container w) as [[[|]|e] w']; reflexivity.
Qed.

Lemma test_is_container_world (w : World) :
  snd (test_is_container w) = after w.
Proof.
  unfold test_is_container, after.
  destruct (is_container w) as [[b|e] w']; reflexivity.
Qed.

(** X7. The integration test passes exactly on a host where the
    executable is resolvable and the started tool ends with status 0. *)
Theorem test_is_container_passes_iff (w : World) :
  fst (test_is_container w) = inl tt
  <-> resolvable w /\ tool_status (host w) = inr 0.
Proof.
  rewrite test_is_container_result, outcome_from_observations. split.
  - destruct (path_lookup (host w) detect_virt) as [p|] eqn:Hp; [|discriminate].
    destruct (tool_status (host w)) as [e|rc]; [discriminate|].
    destruct (rc =? 0) eqn:Hrc; [|discriminate].
    intros _. apply Z.eqb_eq in Hrc. subst rc.
    split; [now apply (resolvable_some w p)|reflexivity].
  - intros [[p Hp] Hs]. now rewrite Hp, Hs.
Qed.

Lemma test_is_container_passes_iff_witness :
  fst (test_is_container (fresh (host_with_tool 0 "lxc" ""))) = inl tt.
Proof.
  apply (proj2 (test_is_container_passes_iff (fresh (host_with_tool 0 "lxc" "")))).
  split.
  - exists "/usr/bin/systemd-detect-virt". reflexivity.
  - reflexivity.
Defined.

(** X8. The test fails on its assertion exactly on a host where the
    executable is resolvable and the started tool ends with a nonzero
    status; a missing tool or a start failure is never reported as a
    failed assertion. *)
Theorem test_is_container_assertion_iff (w : World) :
  fst (test_is_container w) = inr AssertionError
  <-> resolvable w
      /\ exists rc : Z, tool_status (host w) = inr rc /\ rc <> 0.
Proof.
  rewrite test_is_container_result, outcome_from_observations. split.
  - destruct (path_lookup (host w) detect_virt) as [p|] eqn:Hp; [|discriminate].
    destruct (tool_status (host w)) as [e|rc]; [discriminate|].
    destruct (rc =? 0) eqn:Hrc; [discriminate|].
    intros _. apply Z.eqb_neq in Hrc.
    split; [now apply (resolvable_some w p)|now exists rc].
  - intros [[p Hp] (rc & Hs & Hnz)]. rewrite Hp, Hs.
    apply Z.eqb_neq in Hnz. now rewrite Hnz.
Qed.

Lemma test_is_container_assertion_iff_witness :
  fst (test_is_container (fresh (host_with_tool 1 "none" ""))) = inr AssertionError.
Proof.
  apply (proj2 (test_is_container_assertion_iff
                  (fresh (host_with_tool 1 "none" "")))).
  split.
  - exists "/usr/bin/systemd-detect-virt". reflexivity.
  - exists 1. split; [reflexivity|discriminate].
Defined.

(** X9. On a host without the executable the test does not reach its
    assertion: [DetectVirtNotFoundError], with the library's message,
    leaves the test as it was raised, and no process has been started. *)
Theorem test_is_container_missing_tool (w : World) :
  ~ resolvable w ->
  fst (test_is_container w)
  = inr (Propagated
           (EDetectVirtNotFound
              (mkDetectVirtNotFoundError [PyStr not_found_message])))
  /\ spawned (trace (snd (test_is_container w))) = spawned (trace w).
Proof.
  intros Hnr. apply not_resolvable_lookup in Hnr.
  rewrite test_is_container_result, test_is_container_world.
  rewrite outcome_from_observations, Hnr. split; [reflexivity|].
  unfold after. rewrite (is_container_missing w Hnr). cbn [snd].
  rewrite emit_trace, spawned_app. cbn. now rewrite app_nil_r.
Qed.

Lemma test_is_container_missing_tool_witness :
  fst (test_is_container (fresh host_without_tool))
  = inr (Propagated
           (EDetectVirtNotFound
              (mkDetectVirtNotFoundError [PyStr not_found_message])))
  /\ spawned (trace (snd (test_is_container (fresh host_without_tool)))) = [].
Proof.
  apply (test_is_container_missing_tool (fresh host_without_tool)).
  intros [p Hp]. discriminate Hp.
Defined.

(** X10. One run of the test is one call of [is_container()]: when the
    executable is resolvable the test starts exactly one child, with the
    command line [systemd-detect-virt --container], and leaves the host
    as it found it. *)
Theorem test_is_container_spawns_once (w : World) :
  resolvable w ->
  spawned (trace (snd (test_is_container w)))
  = spawned (trace w) ++ [["systemd-detect-virt"; "--container"]%string]
  /\ host (snd (test_is_container w)) = host w.
Proof.
  intros [p Hp]. rewrite test_is_container_world. split.
  - unfold after. destruct (launch (host w) detect_argv) as [e|c] eqn:Hl.
    + rewrite (is_container_not_started w p e Hp Hl). cbn [snd].
      rewrite !emit_trace, <- app_assoc, spawned_app. reflexivity.
    + rewrite (is_container_completed w p c Hp Hl). cbn [snd].
      rewrite !emit_trace, <- app_assoc, spawned_app. reflexivity.
  - apply is_container_host.
Qed.

Lemma test_is_container_spawns_once_witness :
  spawned (trace (snd (test_is_container (fresh (host_with_tool 0 "lxc" "")))))
  = [["systemd-detect-virt"; "--container"]%string]
  /\ host (snd (test_is_container (fresh (host_with_tool 0 "lxc" ""))))
     = host_with_tool 0 "lxc" "".
Proof.
  apply (test_is_container_spawns_once (fresh (host_with_tool 0 "lxc" ""))).
  exists "/usr/bin/systemd-detect-virt". reflexivity.
Defined.
